(** * Growatt solar modbus sensor platform

    A shallow embedding of [custom_components/growatt_solar_modbus/sensor.py]:
    the classification helpers, the data probe with its throttled update,
    the sensor entities and the platform set-up routine. *)

From stdpp Require Import gmap strings list pretty.

Open Scope Z_scope.

(** ** Python values and exceptions *)

(** The values that travel through the platform: configuration options and
    the entries of a reading.  The code never computes with a float, it only
    stores it, hands it out and prints it, so a float is carried by its
    [repr]. *)
Inductive PyValue : Type :=
| PyNone
| PyInt (z : Z)
| PyFloat (repr : string)
| PyStr (s : string).

(** [str(value)] *)
Definition py_str (v : PyValue) : string :=
  match v with
  | PyNone => "None"
  | PyInt z => pretty z
  | PyFloat r => r
  | PyStr s => s
  end.

(** [value == ""] *)
Definition py_eq_str (v : PyValue) (s : string) : bool :=
  match v with
  | PyStr s' => bool_decide (s' = s)
  | _ => false
  end.

(** [value is None] *)
Definition is_None (v : PyValue) : bool :=
  match v with
  | PyNone => true
  | _ => false
  end.

Inductive PyExn : Type :=
| KeyError (k : string)
| TypeError
| Invalid (path : string)
| ClientError (msg : string).

Inductive PyResult (A : Type) : Type :=
| Ok (a : A)
| Raise (e : PyExn).
Arguments Ok {A} a.
Arguments Raise {A} e.

#[global] Instance PyResult_ret : MRet PyResult := @Ok.
#[global] Instance PyResult_bind : MBind PyResult := λ A B f m,
  match m with
  | Ok a => f a
  | Raise e => Raise e
  end.

(** [s.endswith(suffix)]: the last [len(suffix)] characters of [s] are
    [suffix].  The suffixes the platform tests are ASCII, so the test on
    bytes and the test on code points agree. *)
Definition endswith (s suffix : string) : bool :=
  bool_decide (String.length suffix ≤ String.length s)%nat
  && bool_decide
       (String.substring (String.length s - String.length suffix)
          (String.length suffix) s = suffix).

(** ** Sensor descriptions *)

(** An attribute as the client lists it: a dictionary with the keys
    ["name"], ["description"] and ["unit"]. *)
Record Attr : Type := {
  attr_name : string;
  attr_description : string;
  attr_unit : string;
}.

(** The host platform's enumerations.  [SensorDeviceClass] has many more
    members than the five the platform hands out; a few of them are kept to
    show that they are never chosen. *)
Inductive SensorStateClass : Type :=
| MEASUREMENT
| TOTAL
| TOTAL_INCREASING.

Inductive SensorDeviceClass : Type :=
| BATTERY
| CURRENT
| ENERGY
| FREQUENCY
| POWER
| TEMPERATURE
| VOLTAGE.

Module SensorEntityDescription.
Record t : Type := {
  key : string;
  name : string;
  native_unit_of_measurement : string;
  device_class : option SensorDeviceClass;
  state_class : option SensorStateClass;
}.
End SensorEntityDescription.

Definition sensor_state_class (attr : Attr) : option SensorStateClass :=
  if endswith (attr_name attr) "lifetime" || endswith (attr_name attr) "today"
  then Some TOTAL_INCREASING
  else None.

Definition sensor_device_class (attr : Attr) : option SensorDeviceClass :=
  let unit := attr_unit attr in
  if bool_decide (unit = "kWh") then Some ENERGY
  else if bool_decide (unit = "kW") then Some POWER
  else if bool_decide (unit = "V") then Some VOLTAGE
  else if bool_decide (unit = "A") then Some CURRENT
  else if bool_decide (unit = "%") then Some BATTERY
  else None.

Definition unit_of_measurement (attr : Attr) : string :=
  attr_unit attr.

Definition create_sensor_entity_description (attr : Attr)
  : SensorEntityDescription.t :=
  {| SensorEntityDescription.key := attr_name attr;
     SensorEntityDescription.name := attr_description attr;
     SensorEntityDescription.native_unit_of_measurement :=
       unit_of_measurement attr;
     SensorEntityDescription.device_class := sensor_device_class attr;
     SensorEntityDescription.state_class := sensor_state_class attr |}.

(** ** The client library

    [growatt_client.GrowattClient] is an external collaborator; the platform
    only relies on the five operations below.  An operation that awaits I/O
    returns its result, or the exception it raises, together with the
    client's next state. *)
Class ClientApi (Client : Type) : Type := {
  GrowattClient : PyValue → PyValue → Client;
  update_hardware_info : Client → PyResult () * Client;
  get_serial_number : Client → string;
  get_attributes : Client → list Attr;
  async_update : Client → PyResult (gmap string PyValue) * Client;
}.

(** ** The data probe *)

(** What [self.data] holds: the empty list [[]] that [__init__] stores, or
    the mapping returned by the client. *)
Inductive ProbeData : Type :=
| EmptyList
| Mapping (d : gmap string PyValue).

(** [name in data] *)
Definition py_in (name : string) (data : ProbeData) : bool :=
  match data with
  | EmptyList => false
  | Mapping d => bool_decide (is_Some (d !! name))
  end.

(** [data[name]] for a string [name] *)
Definition py_getitem (data : ProbeData) (name : string) : PyResult PyValue :=
  match data with
  | EmptyList => Raise TypeError
  | Mapping d =>
      match d !! name with
      | Some v => Ok v
      | None => Raise (KeyError name)
      end
  end.

(** [bool(data)] *)
Definition py_bool (data : ProbeData) : bool :=
  match data with
  | EmptyList => false
  | Mapping d => negb (bool_decide (d = ∅))
  end.

(** The fields of a [GrowattClientDataProbe]; [_throttle] is the time of the
    last call that [Throttle] let through, [None] before the first one.
    Times are microseconds on the clock behind [utcnow()]. *)
Record Probe (Client : Type) : Type := {
  client : Client;
  data : ProbeData;
  _throttle : option Z;
}.
Arguments client {Client} _.
Arguments data {Client} _.
Arguments _throttle {Client} _.

(** What a method does to the outside world. *)
Inductive Event : Type :=
| ClientUpdate (reply : PyResult (gmap string PyValue))
| LogDebug (msg : string).

(** A method of the probe runs on the probe's state; it returns or raises,
    leaves a state behind and a trace of its events. *)
Record Outcome (Client A : Type) : Type := {
  result : PyResult A;
  final : Probe Client;
  trace : list Event;
}.
Arguments result {Client A} _.
Arguments final {Client A} _.
Arguments trace {Client A} _.

Definition Action (Client A : Type) : Type := Probe Client → Outcome Client A.

#[global] Instance Action_ret {Client} : MRet (Action Client) := λ A a p,
  {| result := Ok a; final := p; trace := [] |}.
#[global] Instance Action_bind {Client} : MBind (Action Client) := λ A B f m p,
  let o := m p in
  match result o with
  | Ok a =>
      let o' := f a (final o) in
      {| result := result o'; final := final o'; trace := trace o ++ trace o' |}
  | Raise e => {| result := Raise e; final := final o; trace := trace o |}
  end.

Definition timedelta (seconds : Z) : Z := seconds * 1000000.

(** Time between updating data from Growatt inverter *)
Definition SCAN_INTERVAL : Z := timedelta 30.

Section probe.
Context {Client : Type} `{!ClientApi Client}.

Definition read_data : Action Client ProbeData := λ p,
  {| result := Ok (data p); final := p; trace := [] |}.

Definition write_data (d : ProbeData) : Action Client () := λ p,
  {| result := Ok ();
     final := {| client := client p; data := d; _throttle := _throttle p |};
     trace := [] |}.

Definition read_throttle : Action Client (option Z) := λ p,
  {| result := Ok (_throttle p); final := p; trace := [] |}.

Definition write_throttle (t : Z) : Action Client () := λ p,
  {| result := Ok ();
     final := {| client := client p; data := data p; _throttle := Some t |};
     trace := [] |}.

Definition lift {A} (r : PyResult A) : Action Client A := λ p,
  {| result := r; final := p; trace := [] |}.

Definition log_debug (msg : string) : Action Client () := λ p,
  {| result := Ok (); final := p; trace := [LogDebug msg] |}.

(** [await self.client.async_update()] *)
Definition await_client_async_update
  : Action Client (gmap string PyValue) := λ p,
  let '(reply, c) := async_update (client p) in
  {| result := reply;
     final := {| client := c; data := data p; _throttle := _throttle p |};
     trace := [ClientUpdate reply] |}.

(** Modelled from the spec: the [Throttle] decorator of
    [homeassistant.util], which the repository imports and does not
    contain.  A guard kept on the probe, checked at the top of the call:
    when less than [min_time] has elapsed since the last call that was let
    through, the call returns at once; otherwise the time is noted and the
    method runs. *)
Definition Throttle (min_time : Z) (method : Action Client ()) (now : Z)
  : Action Client () :=
  last ← read_throttle;
  match last with
  | Some t =>
      if bool_decide (now - t < min_time) then mret ()
      else write_throttle now;; method
  | None => write_throttle now;; method
  end.
End probe.

Module GrowattClientDataProbe.
Section methods.
Context {Client : Type} `{!ClientApi Client}.

Definition __init__ (client : Client) : Probe Client :=
  {| client := client; data := EmptyList; _throttle := None |}.

(** The body of [update], under the decorator. *)
Definition update_undecorated : Action Client () :=
  d ← await_client_async_update;
  write_data (Mapping d);;
  log_debug "Updated: %s".

Definition update : Z → Action Client () :=
  Throttle SCAN_INTERVAL update_undecorated.

(** [name] is a string, so [str(name)] is [name]. *)
Definition get_data (name : string) : Action Client PyValue :=
  d ← read_data;
  if negb (py_in name d) then mret PyNone
  else lift (py_getitem d name).

Definition has_data : Action Client bool :=
  d ← read_data;
  mret (py_bool d).

Definition __format__ (key : string) : Action Client string :=
  value ← get_data key;
  if is_None value then mret ""
  else mret (py_str value).
End methods.
End GrowattClientDataProbe.

(** ** The sensor entities *)

Inductive DeviceEntryType : Type :=
| SERVICE.

Module DeviceInfo.
Record t : Type := {
  entry_type : DeviceEntryType;
  identifiers : list (string * string);
  manufacturer : string;
  name : PyValue;
}.
End DeviceInfo.

(** The attributes [GrowattClientSensor.__init__] sets.  [self.probe] is a
    reference to the one probe made at set-up, which every sensor shares: the
    model keeps that probe in the platform's state and the methods of a
    sensor run on it. *)
Record Sensor : Type := {
  entity_description : SensorEntityDescription.t;
  _attr_unique_id : string;
  _attr_name : string;
  _attr_device_info : DeviceInfo.t;
  template : PyValue;
}.

Module GrowattClientSensor.
Section methods.
Context {Client : Type} `{!ClientApi Client}.
Context (DOMAIN : string).

(** [f"{name} {description.name}"] prints [name] with [str]. *)
Definition __init__ (name : PyValue) (serial : string)
    (description : SensorEntityDescription.t) (template : PyValue)
  : Sensor :=
  {| entity_description := description;
     _attr_unique_id :=
       (serial +:+ "_") +:+ SensorEntityDescription.key description;
     _attr_name :=
       py_str name +:+ " " +:+ SensorEntityDescription.name description;
     _attr_device_info :=
       {| DeviceInfo.entry_type := SERVICE;
          DeviceInfo.identifiers := [(DOMAIN, serial)];
          DeviceInfo.manufacturer := "Growatt";
          DeviceInfo.name := name |};
     template := template |}.

Definition available (self : Sensor) : Action Client bool :=
  GrowattClientDataProbe.has_data.

Definition native_value (self : Sensor) : Action Client PyValue :=
  GrowattClientDataProbe.get_data
    (SensorEntityDescription.key (entity_description self)).

Definition async_update (self : Sensor) : Z → Action Client () :=
  GrowattClientDataProbe.update.
End methods.
End GrowattClientSensor.

(** ** Configuration and set-up *)

(** Modelled from the spec: the option names of [const.py], which is not
    among the sources; the configuration table names the options [port],
    [address] and [name]. *)
Definition CONF_PORT : string := "port".
Definition CONF_ADDRESS : string := "address".
Definition CONF_NAME : string := "name".

(** The part of a [voluptuous] mapping schema the platform uses: a key is
    required, or optional with a default; its value goes through a
    validator, and so does a default that stands in for a missing key. *)
Inductive Marker : Type :=
| Required (k : string)
| Optional (k : string) (default : PyValue).

Definition marker_key (m : Marker) : string :=
  match m with
  | Required k => k
  | Optional k _ => k
  end.

Definition Validator : Type := PyValue → PyResult PyValue.

Fixpoint validate (schema : list (Marker * Validator))
    (conf : gmap string PyValue) : PyResult (gmap string PyValue) :=
  match schema with
  | [] => Ok ∅
  | (m, check) :: rest =>
      v ← match conf !! marker_key m, m with
          | Some v, _ => Ok v
          | None, Optional _ default => Ok default
          | None, Required k => Raise (Invalid k)
          end;
      v' ← check v;
      out ← validate rest conf;
      mret (<[marker_key m := v']> out)
  end.

(** [config[k]] on the validated configuration *)
Definition config_getitem (config : gmap string PyValue) (k : string)
  : PyResult PyValue :=
  match config !! k with
  | Some v => Ok v
  | None => Raise (KeyError k)
  end.

(** What [async_setup_platform] leaves behind: the probe, and its call of
    [async_add_entities]. *)
Record Platform (Client : Type) : Type := {
  probe : Probe Client;
  added_entities : list Sensor;
  update_before_add : bool;
  setup_log : list Event;
}.
Arguments probe {Client} _.
Arguments added_entities {Client} _.
Arguments update_before_add {Client} _.
Arguments setup_log {Client} _.

Section setup.
Context {Client : Type} `{!ClientApi Client}.
Context (DOMAIN : string).
(** [cv.string] and [cv.positive_int], the host platform's validators. *)
Context (cv_string cv_positive_int : Validator).

(** The options this platform adds to the host's base schema; the keys of
    the base schema are the host's business and are left out. *)
Definition PLATFORM_SCHEMA : list (Marker * Validator) :=
  [ (Required CONF_PORT, cv_string);
    (Optional CONF_ADDRESS (PyInt 1), cv_positive_int);
    (Optional CONF_NAME (PyStr ""), cv_string) ].

Definition async_setup_platform (config : gmap string PyValue)
  : PyResult (Platform Client) :=
  port ← config_getitem config CONF_PORT;
  address ← config_getitem config CONF_ADDRESS;
  name ← config_getitem config CONF_NAME;
  let client := GrowattClient port address in
  let '(info, client) := update_hardware_info client in
  _ ← info;
  let serial_number := get_serial_number client in
  let probe := GrowattClientDataProbe.__init__ client in
  let name := if py_eq_str name "" then PyStr serial_number else name in
  let sensors :=
    (λ attr,
       GrowattClientSensor.__init__ DOMAIN name serial_number
         (create_sensor_entity_description attr) PyNone)
      <$> get_attributes client in
  mret {| probe := probe;
          added_entities := sensors;
          update_before_add := true;
          setup_log := [LogDebug "Serial number: %s"] |}.

(** The host validates the platform's configuration with
    [PLATFORM_SCHEMA] and calls [async_setup_platform] on the result. *)
Definition setup_from_configuration (conf : gmap string PyValue)
  : PyResult (Platform Client) :=
  config ← validate PLATFORM_SCHEMA conf;
  async_setup_platform config.
End setup.

(** Successive calls of the probe's [update], at the given times. *)
Fixpoint refreshes {Client : Type} `{!ClientApi Client} (times : list Z)
    (p : Probe Client) : Probe Client * list Event :=
  match times with
  | [] => (p, [])
  | now :: later =>
      let o := GrowattClientDataProbe.update now p in
      let '(p', events) := refreshes later (final o) in
      (p', trace o ++ events)
  end.

Definition is_client_update (e : Event) : bool :=
  match e with
  | ClientUpdate _ => true
  | LogDebug _ => false
  end.

(** How many times the client's [async_update] was called. *)
Definition client_updates (events : list Event) : nat :=
  length (filter (λ e, is_client_update e = true) events).

(** A fetch that succeeded is in the trace. *)
Definition fetched_ok (e : Event) : bool :=
  match e with
  | ClientUpdate (Ok _) => true
  | _ => false
  end.

(** ** A client driven by a script

    A stand-in for the client library, for running the platform on concrete
    cases: the device answers [async_update] with the replies of a script,
    in order, and fails when the script is over. *)
Record ScriptedClient : Type := {
  sc_port : PyValue;
  sc_address : PyValue;
  sc_serial : string;
  sc_hardware_info : PyResult ();
  sc_attributes : list Attr;
  sc_replies : list (PyResult (gmap string PyValue));
}.

Definition scripted_update (c : ScriptedClient)
  : PyResult (gmap string PyValue) * ScriptedClient :=
  match sc_replies c with
  | [] => (Raise (ClientError "no reply"), c)
  | reply :: rest =>
      (reply,
       {| sc_port := sc_port c; sc_address := sc_address c;
          sc_serial := sc_serial c; sc_hardware_info := sc_hardware_info c;
          sc_attributes := sc_attributes c; sc_replies := rest |})
  end.

Definition scripted (device : ScriptedClient) : ClientApi ScriptedClient :=
  {| GrowattClient port address :=
       {| sc_port := port; sc_address := address;
          sc_serial := sc_serial device;
          sc_hardware_info := sc_hardware_info device;
          sc_attributes := sc_attributes device;
          sc_replies := sc_replies device |};
     update_hardware_info c := (sc_hardware_info c, c);
     get_serial_number := sc_serial;
     get_attributes := sc_attributes;
     async_update := scripted_update |}.

(** The inverter of the specification's scenario. *)
Definition power_now : Attr :=
  {| attr_name := "power_now"; attr_description := "Power now";
     attr_unit := "kW" |}.
Definition energy_today : Attr :=
  {| attr_name := "energy_today"; attr_description := "Energy today";
     attr_unit := "kWh" |}.

Definition first_reading : gmap string PyValue :=
  {[ "power_now" := PyFloat "2.5"; "energy_today" := PyFloat "10.0" ]}.

Definition SN123 (replies : list (PyResult (gmap string PyValue)))
  : ScriptedClient :=
  {| sc_port := PyStr "/dev/ttyUSB0"; sc_address := PyInt 1;
     sc_serial := "SN123"; sc_hardware_info := Ok ();
     sc_attributes := [power_now; energy_today];
     sc_replies := replies |}.

(** An inverter that does not answer the request for its hardware
    information. *)
Definition unplugged : ScriptedClient :=
  {| sc_port := PyStr "/dev/ttyUSB0"; sc_address := PyInt 1;
     sc_serial := ""; sc_hardware_info := Raise (ClientError "no answer");
     sc_attributes := []; sc_replies := [] |}.

(** The two sensors of the scenario. *)
Definition power_sensor : Sensor :=
  GrowattClientSensor.__init__ "growatt_solar_modbus" (PyStr "SN123") "SN123"
    (create_sensor_entity_description power_now) PyNone.
Definition energy_sensor : Sensor :=
  GrowattClientSensor.__init__ "growatt_solar_modbus" (PyStr "SN123") "SN123"
    (create_sensor_entity_description energy_today) PyNone.

(** A later reading, which has lost the day's energy. *)
Definition second_reading : gmap string PyValue :=
  {[ "power_now" := PyFloat "3.0" ]}.

(** The client library as the scenario's inverter plays it; the script
    matters to [GrowattClient] only, a probe replays the script of the
    client it holds. *)
#[global] Instance inverter : ClientApi ScriptedClient :=
  scripted (SN123 [Ok first_reading]).

(** Stand-ins for the host's validators on the values of the scenario: a
    string passes [cv.string], a non-negative integer passes
    [cv.positive_int]. *)
Definition accept_str : Validator := λ v,
  match v with
  | PyStr s => Ok (PyStr s)
  | _ => Raise (Invalid "string")
  end.
Definition accept_nonnegative : Validator := λ v,
  match v with
  | PyInt z => if bool_decide (0 ≤ z) then Ok (PyInt z)
               else Raise (Invalid "positive_int")
  | _ => Raise (Invalid "positive_int")
  end.

(** ** The specification's vocabulary *)

(** [s] ends with [suffix]. *)
Definition has_suffix (s suffix : string) : Prop :=
  ∃ front, s = front +:+ suffix.

(** The specification's table from units to device classifications. *)
Definition device_class_table : gmap string SensorDeviceClass :=
  list_to_map
    [ ("kWh", ENERGY); ("kW", POWER); ("V", VOLTAGE); ("A", CURRENT);
      ("%", BATTERY) ].

(** The call of [update] at time [now] is not held back by the throttle:
    it is the first one, or the interval has elapsed since the last call
    that fetched. *)
Definition due {Client : Type} (now : Z) (p : Probe Client) : Prop :=
  match _throttle p with
  | None => True
  | Some t => SCAN_INTERVAL ≤ now - t
  end.

(** The outcome of a call that does nothing. *)
Definition no_op {Client : Type} (p : Probe Client) : Outcome Client () :=
  {| result := Ok (); final := p; trace := [] |}.

(** The reading of the last fetch that succeeded, if any. *)
Fixpoint last_reading (events : list Event) : option (gmap string PyValue) :=
  match events with
  | [] => None
  | e :: rest =>
      match last_reading rest with
      | Some d => Some d
      | None =>
          match e with
          | ClientUpdate (Ok d) => Some d
          | _ => None
          end
      end
  end.


(** An underscore occurs in [s]. *)
Fixpoint has_underscore (s : string) : bool :=
  match s with
  | EmptyString => false
  | String a rest => bool_decide (String a "" = "_") || has_underscore rest
  end.

(** * Properties *)

(** ** Strings *)

Lemma string_length_app (s1 s2 : string) :
  String.length (s1 +:+ s2) = (String.length s1 + String.length s2)%nat.
Proof. induction s1 as [|a s1 IH]; simpl; [done | by rewrite IH]. Qed.

Lemma string_app_assoc (s1 s2 s3 : string) :
  (s1 +:+ s2) +:+ s3 = s1 +:+ s2 +:+ s3.
Proof.
  induction s1 as [|a s1 IH]; [done|].
  change (String a ((s1 +:+ s2) +:+ s3) = String a (s1 +:+ s2 +:+ s3)).
  by rewrite IH.
Qed.

Lemma substring_whole (s : string) :
  String.substring 0 (String.length s) s = s.
Proof. induction s as [|a s IH]; simpl; [done | by rewrite IH]. Qed.

Lemma substring_after_front (front s : string) :
  String.substring (String.length front) (String.length s) (front +:+ s) = s.
Proof.
  induction front as [|a front IH]; simpl.
  - apply substring_whole.
  - apply IH.
Qed.

Lemma substring_split (s : string) (n : nat) :
  (n ≤ String.length s)%nat →
  s = String.substring 0 n s +:+ String.substring n (String.length s - n) s.
Proof.
  revert n. induction s as [|a s IH]; intros [|n] Hn; simpl in *.
  - done.
  - lia.
  - by rewrite substring_whole.
  - rewrite (IH n) at 1 by lia. reflexivity.
Qed.

Lemma endswith_has_suffix (s suffix : string) :
  endswith s suffix = true ↔ has_suffix s suffix.
Proof.
  unfold endswith, has_suffix. rewrite andb_true_iff, !bool_decide_eq_true.
  split.
  - intros [Hlen Hsub].
    exists (String.substring 0 (String.length s - String.length suffix) s).
    pose proof (substring_split s (String.length s - String.length suffix))
      as Hs.
    replace (String.length s - (String.length s - String.length suffix))%nat
      with (String.length suffix) in Hs by lia.
    rewrite Hsub in Hs. apply Hs. lia.
  - intros [front ->]. rewrite string_length_app. split; [lia|].
    replace (String.length front + String.length suffix
               - String.length suffix)%nat
      with (String.length front) by lia.
    apply substring_after_front.
Qed.

Lemma endswith_not_suffix (s suffix : string) :
  endswith s suffix = false ↔ ¬ has_suffix s suffix.
Proof.
  rewrite <- endswith_has_suffix. destruct (endswith s suffix); naive_solver.
Qed.

(** ** Classification of attributes *)

(** C4, as stated, fails: the name [power_now] ends neither with
    [lifetime] nor with [today], and the state class computed for it is not
    the measurement class. *)
Lemma power_now_is_not_measurement :
  ¬ has_suffix (attr_name power_now) "lifetime"
  ∧ ¬ has_suffix (attr_name power_now) "today"
  ∧ sensor_state_class power_now ≠ Some MEASUREMENT
  ∧ SensorEntityDescription.state_class
      (create_sensor_entity_description power_now)
    ≠ Some MEASUREMENT.
Proof.
  split_and!.
  - by apply endswith_not_suffix.
  - by apply endswith_not_suffix.
  - discriminate.
  - discriminate.
Qed.

(** C4, amended: the state class of an attribute, computed when its sensor
    description is built, is the cumulative class [TOTAL_INCREASING] when
    the attribute's name ends with [lifetime] or [today], and no state class
    at all ([None]) otherwise; [energy_today] is cumulative and [power_now]
    has no state class. *)
Theorem sensor_state_class_by_suffix (attr : Attr) :
  SensorEntityDescription.state_class (create_sensor_entity_description attr)
  = sensor_state_class attr
  ∧ (has_suffix (attr_name attr) "lifetime"
     ∨ has_suffix (attr_name attr) "today" →
     sensor_state_class attr = Some TOTAL_INCREASING)
  ∧ (¬ has_suffix (attr_name attr) "lifetime" →
     ¬ has_suffix (attr_name attr) "today" →
     sensor_state_class attr = None)
  ∧ sensor_state_class energy_today = Some TOTAL_INCREASING
  ∧ sensor_state_class power_now = None.
Proof.
  split_and!; try reflexivity.
  - intros Hsuffix. unfold sensor_state_class.
    destruct Hsuffix as [H | H]; apply endswith_has_suffix in H; rewrite H.
    + done.
    + by rewrite orb_true_r.
  - intros Hl%endswith_not_suffix Ht%endswith_not_suffix.
    unfold sensor_state_class. by rewrite Hl, Ht.
Qed.

Lemma sensor_state_class_by_suffix_witness :
  sensor_state_class
    {| attr_name := "energy_lifetime"; attr_description := "Total energy";
       attr_unit := "kWh" |} = Some TOTAL_INCREASING
  ∧ sensor_state_class
      {| attr_name := "grid_voltage"; attr_description := "Grid voltage";
         attr_unit := "V" |} = None.
Proof.
  split.
  - destruct (sensor_state_class_by_suffix
                {| attr_name := "energy_lifetime";
                   attr_description := "Total energy"; attr_unit := "kWh" |})
      as (_ & Hcumulative & _).
    apply Hcumulative. left. by exists "energy_".
  - destruct (sensor_state_class_by_suffix
                {| attr_name := "grid_voltage";
                   attr_description := "Grid voltage"; attr_unit := "V" |})
      as (_ & _ & Hnone & _).
    apply Hnone; by apply endswith_not_suffix.
Defined.

Lemma device_class_table_other (unit : string) :
  unit ≠ "kWh" → unit ≠ "kW" → unit ≠ "V" → unit ≠ "A" → unit ≠ "%" →
  device_class_table !! unit = None.
Proof.
  intros. unfold device_class_table. simpl.
  by rewrite !lookup_insert_ne, lookup_empty.
Qed.

(** C6: the device class of an attribute is the one the table gives for its
    unit: energy for [kWh], power for [kW], voltage for [V], current for
    [A], battery level for [%], and none for any other unit such as
    [XYZ]. *)
Theorem sensor_device_class_table (attr : Attr) :
  sensor_device_class attr = device_class_table !! attr_unit attr
  ∧ SensorEntityDescription.device_class
      (create_sensor_entity_description attr)
    = sensor_device_class attr
  ∧ map_to_list device_class_table
    ≡ₚ [ ("kWh", ENERGY); ("kW", POWER); ("V", VOLTAGE); ("A", CURRENT);
         ("%", BATTERY) ]
  ∧ sensor_device_class
      {| attr_name := "x"; attr_description := "X"; attr_unit := "XYZ" |}
    = None.
Proof.
  split_and!; try reflexivity.
  - unfold sensor_device_class.
    repeat case_bool_decide;
      try match goal with H : attr_unit attr = _ |- _ => by rewrite H end.
    symmetry. by apply device_class_table_other.
  - unfold device_class_table. apply map_to_list_to_map.
    simpl. by apply (bool_decide_unpack _).
Qed.

(** ** The probe's update *)

Section probe_update.
Context {Client : Type} `{!ClientApi Client}.
Implicit Types (p : Probe Client) (now : Z).

Import GrowattClientDataProbe.

Lemma update_throttled p now t :
  _throttle p = Some t → now - t < SCAN_INTERVAL →
  update now p = no_op p.
Proof.
  intros Ht Hlt. unfold update, Throttle, no_op.
  unfold mbind, Action_bind, read_throttle. simpl. rewrite Ht.
  rewrite bool_decide_eq_true_2 by done. reflexivity.
Qed.

Lemma update_runs p now :
  due now p →
  update now p
  = (write_throttle now;; update_undecorated) p.
Proof.
  unfold due, update, Throttle. intros Hdue.
  unfold mbind at 1. unfold Action_bind at 1. unfold read_throttle. simpl.
  destruct (_throttle p) as [t|]; [|reflexivity].
  rewrite bool_decide_eq_false_2 by lia. reflexivity.
Qed.

Lemma update_fetched p now d c :
  due now p → async_update (client p) = (Ok d, c) →
  update now p
  = {| result := Ok ();
       final := {| client := c; data := Mapping d; _throttle := Some now |};
       trace := [ClientUpdate (Ok d); LogDebug "Updated: %s"] |}.
Proof.
  intros Hdue Hreply. rewrite update_runs by done.
  unfold update_undecorated, mbind, Action_bind, write_throttle,
    await_client_async_update, write_data, log_debug. simpl.
  rewrite Hreply. reflexivity.
Qed.

Lemma update_failed p now e c :
  due now p → async_update (client p) = (Raise e, c) →
  update now p
  = {| result := Raise e;
       final := {| client := c; data := data p; _throttle := Some now |};
       trace := [ClientUpdate (Raise e)] |}.
Proof.
  intros Hdue Hreply. rewrite update_runs by done.
  unfold update_undecorated, mbind, Action_bind, write_throttle,
    await_client_async_update, write_data, log_debug. simpl.
  rewrite Hreply. reflexivity.
Qed.

Lemma due_or_throttled p now :
  due now p ∨ ∃ t, _throttle p = Some t ∧ now - t < SCAN_INTERVAL.
Proof.
  unfold due. destruct (_throttle p) as [t|]; [|by left].
  destruct (decide (SCAN_INTERVAL ≤ now - t)); [by left|].
  right. exists t. split; [done | lia].
Qed.
End probe_update.

Section probe_properties.
Context {Client : Type} `{!ClientApi Client}.
Implicit Types (p : Probe Client) (now : Z) (name : string).

Import GrowattClientDataProbe.

Lemma get_data_unfold p name :
  get_data name p
  = {| result := Ok match data p with
                    | EmptyList => PyNone
                    | Mapping d => default PyNone (d !! name)
                    end;
       final := p; trace := [] |}.
Proof.
  unfold get_data, mbind, Action_bind, read_data, py_in. simpl.
  destruct (data p) as [|d]; simpl; [done|].
  case_bool_decide as Hin; simpl.
  - destruct Hin as [v Hv]. unfold lift. by rewrite Hv.
  - apply eq_None_not_Some in Hin. by rewrite Hin.
Qed.

Lemma refreshes_cons now later p :
  refreshes (now :: later) p
  = ((refreshes later (final (update now p))).1,
     trace (update now p) ++ (refreshes later (final (update now p))).2).
Proof.
  cbn [refreshes]. by destruct (refreshes later (final (update now p))).
Qed.

(** A call of [update] is held back, or it fetches a reading, or the
    client fails on it. *)
Lemma update_cases p now :
  update now p = no_op p
  ∨ (∃ d c, due now p ∧ async_update (client p) = (Ok d, c)
       ∧ update now p
         = {| result := Ok ();
              final := {| client := c; data := Mapping d;
                          _throttle := Some now |};
              trace := [ClientUpdate (Ok d); LogDebug "Updated: %s"] |})
  ∨ (∃ e c, due now p ∧ async_update (client p) = (Raise e, c)
       ∧ update now p
         = {| result := Raise e;
              final := {| client := c; data := data p;
                          _throttle := Some now |};
              trace := [ClientUpdate (Raise e)] |}).
Proof.
  destruct (due_or_throttled p now) as [Hdue | (t & Ht & Hlt)].
  - destruct (async_update (client p)) as [[d|e] c] eqn:Hreply.
    + right; left. exists d, c. eauto using update_fetched.
    + right; right. exists e, c. eauto using update_failed.
  - left. eauto using update_throttled.
Qed.

Lemma update_client_failure p now e :
  ClientUpdate (Raise e) ∈ trace (update now p) →
  ∃ c, update now p
       = {| result := Raise e;
            final := {| client := c; data := data p;
                        _throttle := Some now |};
            trace := [ClientUpdate (Raise e)] |}.
Proof.
  destruct (update_cases p now)
    as [-> | [(d & c & _ & _ & ->) | (e' & c & _ & _ & ->)]]; simpl.
  - by intros ?%elem_of_nil.
  - intros Hin. apply elem_of_cons in Hin as [Heq | Hin]; [done|].
    by apply list_elem_of_singleton in Hin.
  - intros Hin%list_elem_of_singleton. injection Hin as <-. by exists c.
Qed.
End probe_properties.

Section probe_claims.
Context {Client : Type} `{!ClientApi Client}.
Implicit Types (p : Probe Client) (now : Z) (name : string).

Import GrowattClientDataProbe.

(** C1: the throttle interval is thirty seconds.  A call of [update] made
    while less than the interval has elapsed since the last call that
    fetched does nothing: it returns without calling the client and leaves
    the probe as it was.  When a call fetches (as the first call on a new
    probe does), it calls the client once, and a second call within the
    interval calls it no more: the two calls together make exactly one
    client update. *)
Theorem update_once_per_interval p now :
  SCAN_INTERVAL = 30 * 1000000
  ∧ (∀ c : Client, due now (__init__ c))
  ∧ (∀ t, _throttle p = Some t → now - t < SCAN_INTERVAL →
       update now p = no_op p)
  ∧ (due now p →
     client_updates (trace (update now p)) = 1%nat
     ∧ _throttle (final (update now p)) = Some now
     ∧ ∀ now', now' - now < SCAN_INTERVAL →
         update now' (final (update now p)) = no_op (final (update now p))
         ∧ client_updates (refreshes [now; now'] p).2 = 1%nat).
Proof.
  split_and!; [done | done | by apply update_throttled |].
  intros Hdue.
  assert (client_updates (trace (update now p)) = 1%nat
          ∧ _throttle (final (update now p)) = Some now) as [Hone Hlast].
  { destruct (async_update (client p)) as [[d|e] c] eqn:Hreply.
    - by rewrite (update_fetched p now d c).
    - by rewrite (update_failed p now e c). }
  split_and!; [done..|]. intros now' Hclose.
  assert (update now' (final (update now p)) = no_op (final (update now p)))
    as Hskip by (by apply (update_throttled _ _ now)).
  split; [done|]. rewrite !refreshes_cons. cbn [refreshes snd].
  rewrite Hskip. simpl. by rewrite !app_nil_r.
Qed.

(** C2: when the client's update fails during a call of [update], the
    probe's data is what it was before the call, so [get_data] answers as
    before: the value the previous reading has for the name, and [None]
    when no reading was ever obtained. *)
Theorem failed_update_keeps_reading p now e name :
  ClientUpdate (Raise e) ∈ trace (update now p) →
  data (final (update now p)) = data p
  ∧ result (get_data name (final (update now p)))
    = result (get_data name p)
  ∧ (∀ d v, data p = Mapping d → d !! name = Some v →
       result (get_data name (final (update now p))) = Ok v)
  ∧ (data p = EmptyList →
     result (get_data name (final (update now p))) = Ok PyNone).
Proof.
  intros (c & ->)%update_client_failure.
  rewrite !get_data_unfold. simpl. split_and!; [done | done | |].
  - intros d v -> ->. done.
  - intros ->. done.
Qed.

(** C3, amended: a client error raised during a call of [update] is not
    caught at the probe: the call raises that error to its caller, nothing
    is logged, and the probe's data stays as it was. *)
Theorem client_error_propagates p now e :
  ClientUpdate (Raise e) ∈ trace (update now p) →
  result (update now p) = Raise e
  ∧ trace (update now p) = [ClientUpdate (Raise e)]
  ∧ data (final (update now p)) = data p.
Proof. by intros (c & ->)%update_client_failure. Qed.

(** C8: [get_data] returns the value cached under the name when the
    current reading has the name, and [None] when it has not; on a new
    probe, which has no reading yet, it returns [None].  It leaves the
    probe as it was. *)
Theorem get_data_lookup p name :
  final (get_data name p) = p
  ∧ (∀ d v, data p = Mapping d → d !! name = Some v →
       result (get_data name p) = Ok v)
  ∧ (∀ d, data p = Mapping d → d !! name = None →
       result (get_data name p) = Ok PyNone)
  ∧ (data p = EmptyList → result (get_data name p) = Ok PyNone)
  ∧ (∀ c : Client, result (get_data name (__init__ c)) = Ok PyNone).
Proof.
  rewrite get_data_unfold. split_and!; [done | | | |].
  - by intros d v -> ->.
  - by intros d -> ->.
  - by intros ->.
  - intros c. by rewrite get_data_unfold.
Qed.

(** C10: formatting the probe with a key never raises and leaves the
    probe as it was; the result is the empty string when [get_data] gives
    [None] for the key, and the string of the cached value otherwise. *)
Theorem format_probe p key :
  final (__format__ key p) = p
  ∧ trace (__format__ key p) = []
  ∧ ∃ value,
      result (get_data key p) = Ok value
      ∧ (value = PyNone → result (__format__ key p) = Ok "")
      ∧ (value ≠ PyNone → result (__format__ key p) = Ok (py_str value)).
Proof.
  unfold __format__, mbind, Action_bind. rewrite get_data_unfold. simpl.
  set (value := match data p with
                | EmptyList => PyNone
                | Mapping d => default PyNone (d !! key)
                end).
  destruct value eqn:Hvalue; simpl; (split_and!; [done | done |]);
    eexists; (split_and!; [done | |]); done.
Qed.
End probe_claims.

Section probe_has_data.
Context {Client : Type} `{!ClientApi Client}.
Implicit Types (p : Probe Client) (now : Z) (times : list Z).

Import GrowattClientDataProbe.

Lemma has_data_unfold p :
  has_data p = {| result := Ok (py_bool (data p)); final := p; trace := [] |}.
Proof. reflexivity. Qed.

Lemma update_client_success p now d :
  ClientUpdate (Ok d) ∈ trace (update now p) →
  ∃ c, update now p
       = {| result := Ok ();
            final := {| client := c; data := Mapping d;
                        _throttle := Some now |};
            trace := [ClientUpdate (Ok d); LogDebug "Updated: %s"] |}.
Proof.
  destruct (update_cases p now)
    as [-> | [(d' & c & _ & _ & ->) | (e & c & _ & _ & ->)]]; simpl.
  - by intros ?%elem_of_nil.
  - intros Hin. apply elem_of_cons in Hin as [Heq | Hin].
    + injection Heq as <-. by exists c.
    + by apply list_elem_of_singleton in Hin.
  - by intros Hin%list_elem_of_singleton.
Qed.

Lemma last_reading_app (events1 events2 : list Event) :
  last_reading (events1 ++ events2)
  = match last_reading events2 with
    | Some d => Some d
    | None => last_reading events1
    end.
Proof.
  induction events1 as [|e events1 IH]; simpl.
  - by destruct (last_reading events2).
  - rewrite IH. by destruct (last_reading events2).
Qed.

Lemma update_data_last_reading p now :
  data (final (update now p))
  = match last_reading (trace (update now p)) with
    | Some d => Mapping d
    | None => data p
    end.
Proof.
  destruct (update_cases p now)
    as [-> | [(d & c & _ & _ & ->) | (e & c & _ & _ & ->)]]; done.
Qed.

Lemma last_reading_None (events : list Event) :
  last_reading events = None ↔ Forall (λ e, fetched_ok e = false) events.
Proof.
  induction events as [|e events IH]; simpl.
  - split; [by constructor | done].
  - rewrite Forall_cons, <- IH.
    destruct (last_reading events) as [d|].
    + split; [done | by intros [_ ?]].
    + destruct e as [[d|err]|msg]; simpl; split; try done.
      by intros [? _].
Qed.

(** Whether the probe has data after a sequence of calls of [update] is
    decided by the last fetch that succeeded. *)
Lemma refreshes_has_data times p :
  py_bool (data (refreshes times p).1)
  = match last_reading (refreshes times p).2 with
    | Some d => negb (bool_decide (d = ∅))
    | None => py_bool (data p)
    end.
Proof.
  revert p. induction times as [|now times IH]; intros p; [done|].
  rewrite refreshes_cons. cbn [fst snd]. rewrite last_reading_app, IH.
  destruct (last_reading (refreshes times (final (update now p))).2); [done|].
  rewrite update_data_last_reading.
  by destruct (last_reading (trace (update now p))).
Qed.

(** As long as no fetch has succeeded, the probe holds the empty list. *)
Lemma no_fetch_no_data times p :
  data p = EmptyList →
  Forall (λ e, fetched_ok e = false) (refreshes times p).2 →
  data (refreshes times p).1 = EmptyList.
Proof.
  revert p. induction times as [|now later IH]; intros p Hdata; [done|].
  rewrite refreshes_cons. cbn [fst snd]. rewrite Forall_app.
  intros [Hfirst Hrest]. apply IH; [|done].
  destruct (update_cases p now)
    as [-> | [(d & c & _ & _ & Hup) | (e & c & _ & _ & ->)]];
    [done | | done].
  rewrite Hup in Hfirst. simpl in Hfirst.
  by apply Forall_cons in Hfirst as [? _].
Qed.

(** C5, amended: [has_data] is false on a new probe and stays false as
    long as no call of [update] has fetched a reading; after a call that
    fetched a reading it is true when that reading has an entry, and false
    when the reading is the empty mapping.  Over any sequence of calls on a
    new probe it is true exactly when the last fetch that succeeded gave a
    reading with an entry, whatever failed or was held back since: it is
    false only before the first successful fetch, or while the reading last
    fetched is the empty mapping.  It leaves the probe as it was. *)
Theorem has_data_after_fetch p now :
  final (has_data p) = p
  ∧ (∀ c : Client, result (has_data (__init__ c)) = Ok false)
  ∧ (∀ (c : Client) times,
       Forall (λ e, fetched_ok e = false) (refreshes times (__init__ c)).2 →
       result (has_data (refreshes times (__init__ c)).1) = Ok false)
  ∧ (∀ d, ClientUpdate (Ok d) ∈ trace (update now p) →
       result (update now p) = Ok ()
       ∧ (d ≠ ∅ → result (has_data (final (update now p))) = Ok true)
       ∧ (d = ∅ → result (has_data (final (update now p))) = Ok false))
  ∧ (∀ (c : Client) times,
       (result (has_data (refreshes times (__init__ c)).1) = Ok true
        ↔ ∃ d, last_reading (refreshes times (__init__ c)).2 = Some d
               ∧ d ≠ ∅)
       ∧ (result (has_data (refreshes times (__init__ c)).1) = Ok false
          ↔ Forall (λ e, fetched_ok e = false)
              (refreshes times (__init__ c)).2
            ∨ last_reading (refreshes times (__init__ c)).2 = Some ∅)).
Proof.
  split_and!; [done | done | | |].
  - intros c times Hnone. rewrite has_data_unfold. simpl.
    by rewrite no_fetch_no_data.
  - intros d (c & ->)%update_client_success.
    rewrite has_data_unfold. simpl. split_and!; [done | |].
    + intros Hd. by rewrite bool_decide_eq_false_2.
    + intros Hd. by rewrite bool_decide_eq_true_2.
  - intros c times. rewrite has_data_unfold. cbn [result].
    rewrite refreshes_has_data, <- last_reading_None.
    destruct (last_reading (refreshes times (__init__ c)).2) as [d|];
      cbn [data __init__ py_bool].
    + destruct (decide (d = ∅)) as [Hd | Hd].
      * rewrite bool_decide_eq_true_2 by done. simpl. split.
        -- split; [done | by intros (d' & [= <-] & Hd')].
        -- split; [right; by rewrite Hd | done].
      * rewrite bool_decide_eq_false_2 by done. simpl. split.
        -- split; [by exists d | done].
        -- split; [done | by intros [? | [= ?]]].
    + split.
      * split; [done | by intros (d' & ? & _)].
      * split; [by left | done].
Qed.
End probe_has_data.

(** ** Set-up *)

Section setup_properties.
Context {Client : Type} `{!ClientApi Client}.
Context (DOMAIN : string).
Implicit Types (config conf : gmap string PyValue) (c : Client).

Lemma async_setup_platform_runs config port address name c :
  config !! CONF_PORT = Some port →
  config !! CONF_ADDRESS = Some address →
  config !! CONF_NAME = Some name →
  update_hardware_info (GrowattClient port address) = (Ok (), c) →
  async_setup_platform DOMAIN config
  = Ok {| probe := GrowattClientDataProbe.__init__ c;
          added_entities :=
            (λ attr,
               GrowattClientSensor.__init__ DOMAIN
                 (if py_eq_str name "" then PyStr (get_serial_number c)
                  else name)
                 (get_serial_number c)
                 (create_sensor_entity_description attr) PyNone)
              <$> get_attributes c;
          update_before_add := true;
          setup_log := [LogDebug "Serial number: %s"] |}.
Proof.
  intros Hport Haddress Hname Hinfo.
  unfold async_setup_platform, config_getitem.
  rewrite Hport, Haddress, Hname. simpl. by rewrite Hinfo.
Qed.

Lemma async_setup_platform_inv config pf :
  async_setup_platform DOMAIN config = Ok pf →
  ∃ port address name,
    config !! CONF_PORT = Some port
    ∧ config !! CONF_ADDRESS = Some address
    ∧ config !! CONF_NAME = Some name
    ∧ update_hardware_info (GrowattClient port address)
      = (Ok (), client (probe pf)).
Proof.
  unfold async_setup_platform, config_getitem.
  destruct (config !! CONF_PORT) as [port|] eqn:Hport; [|done].
  destruct (config !! CONF_ADDRESS) as [address|] eqn:Haddress; [|done].
  destruct (config !! CONF_NAME) as [name|] eqn:Hname; [|done].
  simpl.
  destruct (update_hardware_info (GrowattClient port address))
    as [[[]|e] c] eqn:Hinfo; [|done].
  simpl. intros [= <-]. by exists port, address, name.
Qed.

(** C7: when the client's hardware information is obtained, set-up adds
    one sensor for each attribute of the client's catalog, in order; the
    sensor of an attribute has the unique id [<serial>_<attribute name>]
    and the name [<device name> <attribute description>], where the device
    name is the configured name, or the serial number when that is empty.
    When the names of the catalog are pairwise distinct, so are the unique
    ids. *)
Theorem setup_one_sensor_per_attribute config port address name c :
  config !! CONF_PORT = Some port →
  config !! CONF_ADDRESS = Some address →
  config !! CONF_NAME = Some name →
  update_hardware_info (GrowattClient port address) = (Ok (), c) →
  ∃ pf,
    async_setup_platform DOMAIN config = Ok pf
    ∧ length (added_entities pf) = length (get_attributes c)
    ∧ (∀ (i : nat) attr, get_attributes c !! i = Some attr →
         ∃ s, added_entities pf !! i = Some s
           ∧ _attr_unique_id s
             = get_serial_number c +:+ "_" +:+ attr_name attr
           ∧ _attr_name s
             = py_str (DeviceInfo.name (_attr_device_info s))
               +:+ " " +:+ attr_description attr
           ∧ DeviceInfo.name (_attr_device_info s)
             = (if py_eq_str name "" then PyStr (get_serial_number c)
                else name))
    ∧ (NoDup (attr_name <$> get_attributes c) →
       NoDup (_attr_unique_id <$> added_entities pf)).
Proof.
  intros Hport Haddress Hname Hinfo. eexists. split.
  { by apply (async_setup_platform_runs _ port address name c). }
  simpl. split_and!.
  - by rewrite length_fmap.
  - intros i attr Hattr. eexists. split.
    { by rewrite list_lookup_fmap, Hattr. }
    simpl. split_and!; [|done..]. by rewrite string_app_assoc.
  - intros Hnames. rewrite <- list_fmap_compose.
    change (NoDup ((String.app (get_serial_number c +:+ "_") ∘ attr_name)
                     <$> get_attributes c)).
    rewrite list_fmap_compose. by apply (NoDup_fmap_2 _).
Qed.
End setup_properties.

Section configuration.
Context {Client : Type} `{!ClientApi Client}.
Context (DOMAIN : string) (cv_string cv_positive_int : Validator).
Implicit Types (config conf : gmap string PyValue).

Lemma validate_PLATFORM_SCHEMA_inv conf config :
  validate (PLATFORM_SCHEMA cv_string cv_positive_int) conf = Ok config →
  ∃ given port address name,
    conf !! CONF_PORT = Some given
    ∧ cv_string given = Ok port
    ∧ cv_positive_int (default (PyInt 1) (conf !! CONF_ADDRESS))
      = Ok address
    ∧ cv_string (default (PyStr "") (conf !! CONF_NAME)) = Ok name
    ∧ config !! CONF_PORT = Some port
    ∧ config !! CONF_ADDRESS = Some address
    ∧ config !! CONF_NAME = Some name.
Proof.
  unfold PLATFORM_SCHEMA. cbn [validate marker_key].
  unfold mbind, mret, PyResult_bind, PyResult_ret.
  destruct (conf !! CONF_PORT) as [given|]; [|done].
  destruct (cv_string given) as [port|] eqn:Hport; [|done].
  assert (∀ o : option PyValue,
            match o with Some v => Ok v | None => Ok (PyInt 1) end
            = Ok (default (PyInt 1) o)) as -> by (by intros []).
  destruct (cv_positive_int _) as [address|] eqn:Haddress; [|done].
  assert (∀ o : option PyValue,
            match o with Some v => Ok v | None => Ok (PyStr "") end
            = Ok (default (PyStr "") o)) as -> by (by intros []).
  destruct (cv_string (default _ _)) as [name|] eqn:Hname; [|done].
  intros [= <-]. exists given, port, address, name.
  unfold CONF_PORT, CONF_ADDRESS, CONF_NAME in *.
  split_and!; try done; by simplify_map_eq.
Qed.

Lemma validate_PLATFORM_SCHEMA_no_port conf :
  conf !! CONF_PORT = None →
  validate (PLATFORM_SCHEMA cv_string cv_positive_int) conf
  = Raise (Invalid CONF_PORT).
Proof.
  intros Hport. unfold PLATFORM_SCHEMA. cbn [validate marker_key].
  unfold mbind, PyResult_bind. by rewrite Hport.
Qed.

(** C9: the port option is required: a configuration without it is
    refused.  In a configuration that set-up accepts, an absent address
    option stands for 1 and an absent name option for the empty string,
    and when the name is the empty string the device and the sensors are
    shown under the serial number the client reports. *)
Theorem configuration_defaults conf :
  cv_string (PyStr "") = Ok (PyStr "") →
  cv_positive_int (PyInt 1) = Ok (PyInt 1) →
  (conf !! CONF_PORT = None →
   setup_from_configuration DOMAIN cv_string cv_positive_int conf
   = Raise (Invalid CONF_PORT))
  ∧ (∀ pf,
       setup_from_configuration DOMAIN cv_string cv_positive_int conf
       = Ok pf →
       ∃ config port address name,
         validate (PLATFORM_SCHEMA cv_string cv_positive_int) conf
         = Ok config
         ∧ async_setup_platform DOMAIN config = Ok pf
         ∧ is_Some (conf !! CONF_PORT)
         ∧ config !! CONF_PORT = Some port
         ∧ config !! CONF_ADDRESS = Some address
         ∧ config !! CONF_NAME = Some name
         ∧ (conf !! CONF_ADDRESS = None → address = PyInt 1)
         ∧ (conf !! CONF_NAME = None → name = PyStr "")
         ∧ update_hardware_info (GrowattClient port address)
           = (Ok (), client (probe pf))
         ∧ (name = PyStr "" →
            Forall
              (λ s,
                 DeviceInfo.name (_attr_device_info s)
                 = PyStr (get_serial_number (client (probe pf)))
                 ∧ _attr_name s
                   = get_serial_number (client (probe pf)) +:+ " "
                     +:+ SensorEntityDescription.name
                           (entity_description s))
              (added_entities pf))).
Proof.
  intros Hstring Hint. split.
  - intros Hport. unfold setup_from_configuration.
    by rewrite validate_PLATFORM_SCHEMA_no_port.
  - intros pf. unfold setup_from_configuration.
    unfold mbind, PyResult_bind.
    destruct (validate _ conf) as [config|] eqn:Hvalid; [|done].
    intros Hsetup.
    destruct (validate_PLATFORM_SCHEMA_inv conf config Hvalid)
      as (given & port & address & name
          & Hgiven & _ & Haddress & Hname & Hp & Ha & Hn).
    destruct (async_setup_platform_inv DOMAIN config pf Hsetup)
      as (port' & address' & name' & Hp' & Ha' & Hn' & Hinfo).
    rewrite Hp in Hp'. rewrite Ha in Ha'. rewrite Hn in Hn'.
    injection Hp' as <-. injection Ha' as <-. injection Hn' as <-.
    exists config, port, address, name.
    split_and!; [done | done | by eauto | done | done | done | | | done |].
    + intros Habsent. rewrite Habsent in Haddress. simpl in Haddress.
      congruence.
    + intros Habsent. rewrite Habsent in Hname. simpl in Hname.
      congruence.
    + intros ->.
      rewrite (async_setup_platform_runs DOMAIN config port address
                 (PyStr "") _ Hp Ha Hn Hinfo) in Hsetup.
      injection Hsetup as <-. simpl.
      rewrite Forall_fmap. by apply Forall_true.
Qed.
End configuration.

(** ** Runs on the scripted inverter *)

Section runs.
Import GrowattClientDataProbe.

(** C3, as stated, fails: the client's error comes out of [update]. *)
Lemma update_raises_client_error :
  let p := __init__ (SN123 [Raise (ClientError "timeout")]) in
  ClientUpdate (Raise (ClientError "timeout")) ∈ trace (update 0 p)
  ∧ result (update 0 p) = Raise (ClientError "timeout")
  ∧ result (update 0 p) ≠ Ok ().
Proof.
  split_and!.
  - vm_compute. constructor.
  - reflexivity.
  - discriminate.
Qed.

(** C5, as stated, fails: a fetch that returns the empty mapping succeeds
    and [has_data] is still false. *)
Lemma has_data_false_after_empty_reading :
  let p := __init__ (SN123 [Ok ∅]) in
  result (update 0 p) = Ok ()
  ∧ ClientUpdate (Ok ∅) ∈ trace (update 0 p)
  ∧ result (has_data (final (update 0 p))) = Ok false
  ∧ result (has_data (final (update 0 p))) ≠ Ok true.
Proof.
  split_and!.
  - reflexivity.
  - vm_compute. constructor.
  - reflexivity.
  - discriminate.
Qed.

Lemma first_reading_not_empty : first_reading ≠ ∅.
Proof.
  intros Hempty. apply (f_equal (λ m, m !! "power_now")) in Hempty.
  discriminate Hempty.
Qed.

Lemma update_once_per_interval_witness :
  let p := __init__ (SN123 [Ok first_reading; Ok first_reading]) in
  due 0 p
  ∧ 29999999 - 0 < SCAN_INTERVAL
  ∧ update 29999999 (final (update 0 p)) = no_op (final (update 0 p))
  ∧ client_updates (refreshes [0; 29999999] p).2 = 1%nat.
Proof.
  intros p.
  destruct (update_once_per_interval p 0) as (_ & _ & _ & Hfetch).
  destruct (Hfetch I) as (_ & _ & Hsecond).
  destruct (Hsecond 29999999 eq_refl) as [Hskip Hone].
  split_and!; [exact I | reflexivity | exact Hskip | exact Hone].
Defined.

Lemma failed_update_keeps_reading_witness :
  let p := final (update 0 (__init__ (SN123 [Ok first_reading;
                                             Raise (ClientError "timeout")])))
  in
  ClientUpdate (Raise (ClientError "timeout")) ∈ trace (update 60000000 p)
  ∧ result (get_data "power_now" (final (update 60000000 p)))
    = Ok (PyFloat "2.5").
Proof.
  intros p.
  assert (ClientUpdate (Raise (ClientError "timeout"))
            ∈ trace (update 60000000 p)) as Hfails
    by (vm_compute; constructor).
  destruct (failed_update_keeps_reading p 60000000 _ "power_now" Hfails)
    as (_ & _ & Hkept & _).
  split; [exact Hfails|]. by apply (Hkept first_reading).
Defined.

Lemma client_error_propagates_witness :
  let p := __init__ (SN123 [Raise (ClientError "timeout")]) in
  ClientUpdate (Raise (ClientError "timeout")) ∈ trace (update 0 p)
  ∧ result (update 0 p) = Raise (ClientError "timeout")
  ∧ data (final (update 0 p)) = EmptyList.
Proof.
  intros p.
  assert (ClientUpdate (Raise (ClientError "timeout"))
            ∈ trace (update 0 p)) as Hfails
    by (vm_compute; constructor).
  destruct (client_error_propagates p 0 _ Hfails) as (Hraise & _ & Hdata).
  split_and!; [exact Hfails | exact Hraise | exact Hdata].
Defined.

Lemma has_data_after_fetch_witness :
  let failing := __init__ (SN123 [Raise (ClientError "timeout")]) in
  let p := __init__ (SN123 [Ok first_reading]) in
  let stale :=
    __init__ (SN123 [Ok first_reading; Raise (ClientError "timeout")]) in
  result (has_data (refreshes [0] failing).1) = Ok false
  ∧ ClientUpdate (Ok first_reading) ∈ trace (update 0 p)
  ∧ result (has_data (final (update 0 p))) = Ok true
  ∧ last_reading (refreshes [0; 60000000] stale).2 = Some first_reading
  ∧ result (has_data (refreshes [0; 60000000] stale).1) = Ok true.
Proof.
  intros failing p stale.
  destruct (has_data_after_fetch p 0)
    as (_ & _ & Hbefore & Hafter & Hhistory).
  assert (ClientUpdate (Ok first_reading) ∈ trace (update 0 p)) as Hfetched
    by (vm_compute; constructor).
  destruct (Hafter first_reading Hfetched) as (_ & Htrue & _).
  destruct (Hhistory (SN123 [Ok first_reading; Raise (ClientError "timeout")])
              [0; 60000000]) as [[_ Hstale] _].
  split_and!;
    [| exact Hfetched | exact (Htrue first_reading_not_empty) | reflexivity |].
  - apply (Hbefore (SN123 [Raise (ClientError "timeout")]) [0]).
    vm_compute. repeat constructor.
  - apply Hstale. exists first_reading.
    split; [reflexivity | exact first_reading_not_empty].
Defined.

Lemma get_data_lookup_witness :
  let p := final (update 0 (__init__ (SN123 [Ok first_reading]))) in
  result (get_data "power_now" p) = Ok (PyFloat "2.5")
  ∧ result (get_data "grid_voltage" p) = Ok PyNone.
Proof.
  intros p.
  destruct (get_data_lookup p "power_now") as (_ & Hhit & _).
  destruct (get_data_lookup p "grid_voltage") as (_ & _ & Hmiss & _).
  split.
  - by apply (Hhit first_reading).
  - by apply (Hmiss first_reading).
Defined.

Lemma format_probe_witness :
  let p := final (update 0 (__init__ (SN123 [Ok first_reading]))) in
  result (__format__ "power_now" p) = Ok "2.5"
  ∧ result (__format__ "grid_voltage" p) = Ok "".
Proof.
  intros p.
  destruct (format_probe p "power_now") as (_ & _ & v & Hv & _ & Hvalue).
  destruct (format_probe p "grid_voltage") as (_ & _ & w & Hw & Hnone & _).
  injection Hv as <-. injection Hw as <-.
  split.
  - by apply Hvalue.
  - by apply Hnone.
Defined.

Lemma setup_one_sensor_per_attribute_witness :
  let config : gmap string PyValue :=
    {[ "port" := PyStr "/dev/ttyUSB0"; "address" := PyInt 1;
       "name" := PyStr "" ]} in
  ∃ pf,
    async_setup_platform "growatt_solar_modbus" config = Ok pf
    ∧ _attr_unique_id <$> added_entities pf
      = ["SN123_power_now"; "SN123_energy_today"]
    ∧ NoDup (_attr_unique_id <$> added_entities pf).
Proof.
  intros config.
  assert (update_hardware_info (GrowattClient (PyStr "/dev/ttyUSB0") (PyInt 1))
          = (Ok (), SN123 [Ok first_reading])) as Hinfo by reflexivity.
  destruct (setup_one_sensor_per_attribute "growatt_solar_modbus" config
              (PyStr "/dev/ttyUSB0") (PyInt 1) (PyStr "")
              (SN123 [Ok first_reading]) eq_refl eq_refl eq_refl Hinfo)
    as (pf & Hsetup & _ & _ & Hdistinct).
  exists pf. split_and!; [exact Hsetup | | apply Hdistinct].
  - injection Hsetup as <-. reflexivity.
  - by apply (bool_decide_unpack _).
Defined.

Lemma configuration_defaults_witness :
  let conf : gmap string PyValue := {[ "port" := PyStr "/dev/ttyUSB0" ]} in
  setup_from_configuration "growatt_solar_modbus" accept_str
    accept_nonnegative ∅
  = Raise (Invalid CONF_PORT)
  ∧ ∃ pf,
      setup_from_configuration "growatt_solar_modbus" accept_str
        accept_nonnegative conf
      = Ok pf
      ∧ sc_address (client (probe pf)) = PyInt 1
      ∧ _attr_name <$> added_entities pf
        = ["SN123 Power now"; "SN123 Energy today"].
Proof.
  intros conf. split.
  - by apply (configuration_defaults "growatt_solar_modbus" accept_str
                accept_nonnegative ∅ eq_refl eq_refl).
  - destruct (configuration_defaults "growatt_solar_modbus" accept_str
                accept_nonnegative conf eq_refl eq_refl) as [_ Haccepted].
    destruct (setup_from_configuration "growatt_solar_modbus" accept_str
                accept_nonnegative conf) as [pf|e] eqn:Hsetup;
      [|discriminate Hsetup].
    destruct (Haccepted pf eq_refl) as (config & port & address & name & _).
    exists pf. injection Hsetup as <-. by split_and!.
Defined.

(** The scenario of the specification: the inverter [SN123] with the
    attributes [power_now] and [energy_today], configured by its port
    alone, after the first fetch. *)
Example scenario_SN123 :
  ∃ pf power energy,
    setup_from_configuration "growatt_solar_modbus" accept_str
      accept_nonnegative {[ "port" := PyStr "/dev/ttyUSB0" ]}
    = Ok pf
    ∧ added_entities pf = [power; energy]
    ∧ update_before_add pf = true
    ∧ _attr_unique_id power = "SN123_power_now"
    ∧ _attr_unique_id energy = "SN123_energy_today"
    ∧ SensorEntityDescription.device_class (entity_description power)
      = Some POWER
    ∧ SensorEntityDescription.state_class (entity_description energy)
      = Some TOTAL_INCREASING
    ∧ result (GrowattClientSensor.available power (probe pf)) = Ok false
    ∧ let p := final (GrowattClientSensor.async_update power 0 (probe pf)) in
      result (GrowattClientSensor.available energy p) = Ok true
      ∧ result (GrowattClientSensor.native_value power p)
        = Ok (PyFloat "2.5")
      ∧ result (GrowattClientSensor.native_value energy p)
        = Ok (PyFloat "10.0").
Proof.
  eexists _, _, _. split_and!; [reflexivity..|].
  cbv zeta. split_and!; reflexivity.
Qed.
End runs.

(** ** More on the probe *)

Section probe_more.
Context {Client : Type} `{!ClientApi Client}.
Implicit Types (p : Probe Client) (now : Z) (times : list Z) (name : string).

Import GrowattClientDataProbe.


Lemma update_due_once p now :
  due now p →
  client_updates (trace (update now p)) = 1%nat
  ∧ _throttle (final (update now p)) = Some now.
Proof.
  intros Hdue. destruct (async_update (client p)) as [[d|e] c] eqn:Hreply.
  - by rewrite (update_fetched p now d c).
  - by rewrite (update_failed p now e c).
Qed.

Lemma client_updates_app (events1 events2 : list Event) :
  client_updates (events1 ++ events2)
  = (client_updates events1 + client_updates events2)%nat.
Proof. unfold client_updates. by rewrite filter_app, length_app. Qed.

Lemma refreshes_throttled times p t :
  _throttle p = Some t →
  Forall (λ now, now - t < SCAN_INTERVAL) times →
  refreshes times p = (p, []).
Proof.
  intros Ht. induction 1 as [|now times Hnow _ IH]; [done|].
  rewrite refreshes_cons, (update_throttled p now t) by done.
  simpl. by rewrite IH.
Qed.

(** [update] raises only what the client raised: when a call of [update]
    raises, the client was called and raised that very error. *)
Theorem update_raises_only_client_error p now e :
  result (update now p) = Raise e →
  ClientUpdate (Raise e) ∈ trace (update now p).
Proof.
  destruct (update_cases p now)
    as [-> | [(d & c & _ & _ & ->) | (e' & c & _ & _ & ->)]]; simpl;
    [done | done |].
  intros [= ->]. by apply list_elem_of_singleton.
Qed.

(** A fetch replaces the reading as a whole: after a call of [update] that
    fetched the reading [d], [get_data] answers from [d] alone, whatever the
    probe held before. *)
Theorem fetch_replaces_reading p now d name :
  ClientUpdate (Ok d) ∈ trace (update now p) →
  data (final (update now p)) = Mapping d
  ∧ result (get_data name (final (update now p)))
    = Ok (default PyNone (d !! name)).
Proof.
  intros (c & ->)%update_client_success. by rewrite get_data_unfold.
Qed.

(** Once more than the interval has passed since a call that fetched, the
    next call of [update] calls the client again. *)
Theorem update_again_after_interval p now now' :
  due now p → SCAN_INTERVAL < now' - now →
  client_updates (trace (update now' (final (update now p)))) = 1%nat
  ∧ client_updates (refreshes [now; now'] p).2 = 2%nat.
Proof.
  intros Hdue Hlater.
  destruct (update_due_once p now Hdue) as [Hone Hlast].
  assert (due now' (final (update now p))) as Hdue'.
  { unfold due. rewrite Hlast. lia. }
  destruct (update_due_once _ now' Hdue') as [Hone' _].
  split; [done|]. rewrite !refreshes_cons. cbn [refreshes snd].
  rewrite !client_updates_app, Hone, Hone'. done.
Qed.

Lemma refreshes_burst p now times :
  due now p →
  Forall (λ now', now' - now < SCAN_INTERVAL) times →
  refreshes (now :: times) p = (final (update now p), trace (update now p)).
Proof.
  intros Hdue Hclose.
  destruct (update_due_once p now Hdue) as [_ Hlast].
  rewrite refreshes_cons.
  rewrite (refreshes_throttled times _ now Hlast Hclose). simpl.
  by rewrite app_nil_r.
Qed.

(** However many calls of [update] follow a call that fetched, as long as
    each is made within the interval of that call the client is called once
    in all, and the probe keeps what the first call left. *)
Theorem one_fetch_per_burst p now times :
  due now p →
  Forall (λ now', now' - now < SCAN_INTERVAL) times →
  (refreshes (now :: times) p).1 = final (update now p)
  ∧ client_updates (refreshes (now :: times) p).2 = 1%nat.
Proof.
  intros Hdue Hclose. rewrite refreshes_burst by done.
  split; [done|]. by apply update_due_once.
Qed.

(** After any sequence of calls of [update], the probe holds the reading of
    the last fetch that succeeded, or what it held at the start when none
    did. *)
Theorem data_is_last_reading times p :
  data (refreshes times p).1
  = match last_reading (refreshes times p).2 with
    | Some d => Mapping d
    | None => data p
    end.
Proof.
  revert p. induction times as [|now times IH]; intros p; [done|].
  rewrite refreshes_cons. cbn [fst snd]. rewrite last_reading_app, IH.
  destruct (last_reading (refreshes times (final (update now p))).2); [done|].
  apply update_data_last_reading.
Qed.
End probe_more.


(** ** More on the sensors *)

Section sensors_more.
Context {Client : Type} `{!ClientApi Client}.
Implicit Types (p : Probe Client) (now : Z) (self : Sensor).


(** A sensor that is not available has no value: when [available] is
    false, [native_value] is [None]. *)
Theorem unavailable_sensor_has_no_value self p :
  result (GrowattClientSensor.available self p) = Ok false →
  result (GrowattClientSensor.native_value self p) = Ok PyNone.
Proof.
  unfold GrowattClientSensor.available, GrowattClientSensor.native_value.
  rewrite has_data_unfold, get_data_unfold. simpl.
  destruct (data p) as [|d]; [done|]. simpl.
  intros Hfalse. injection Hfalse as Hempty.
  apply negb_false_iff, bool_decide_eq_true in Hempty.
  by rewrite Hempty, lookup_empty.
Qed.

End sensors_more.

(** ** More on set-up *)

Lemma string_app_cons (a : Ascii.ascii) (s t : string) :
  String a s +:+ t = String a (s +:+ t).
Proof. done. Qed.

Lemma string_app_nil_l (t : string) : "" +:+ t = t.
Proof. done. Qed.

Lemma app_underscore_inj (s1 s2 k1 k2 : string) :
  has_underscore s1 = false → has_underscore s2 = false →
  s1 +:+ "_" +:+ k1 = s2 +:+ "_" +:+ k2 →
  s1 = s2 ∧ k1 = k2.
Proof.
  revert s2. induction s1 as [|a s1 IH]; intros [|b s2] H1 H2 Heq;
    rewrite ?string_app_cons, ?string_app_nil_l in Heq; simpl in H1, H2.
  - by injection Heq as ->.
  - injection Heq as Hb _. rewrite <- Hb in H2.
    by rewrite bool_decide_eq_true_2 in H2.
  - injection Heq as Ha _. rewrite Ha in H1.
    by rewrite bool_decide_eq_true_2 in H1.
  - injection Heq as -> Hrest.
    apply orb_false_iff in H1 as [_ H1]. apply orb_false_iff in H2 as [_ H2].
    destruct (IH s2 H1 H2 Hrest) as [-> ->]. done.
Qed.

Section setup_more.
Context {Client : Type} `{!ClientApi Client}.
Context (DOMAIN : string).
Implicit Types (config : gmap string PyValue) (c : Client).

(** The sensor set-up makes for an attribute reads the probe under the
    attribute's name and carries the attribute's unit: after an update of
    the sensor that fetched the reading [d], its value is the entry of [d]
    under that name, and [None] when [d] has no such entry. *)
Theorem sensor_reads_its_attribute config port address name c :
  config !! CONF_PORT = Some port →
  config !! CONF_ADDRESS = Some address →
  config !! CONF_NAME = Some name →
  update_hardware_info (GrowattClient port address) = (Ok (), c) →
  ∃ pf,
    async_setup_platform DOMAIN config = Ok pf
    ∧ ∀ (i : nat) attr, get_attributes c !! i = Some attr →
        ∃ self,
          added_entities pf !! i = Some self
          ∧ SensorEntityDescription.native_unit_of_measurement
              (entity_description self) = attr_unit attr
          ∧ ∀ (p : Probe Client) now d,
              ClientUpdate (Ok d)
                ∈ trace (GrowattClientSensor.async_update self now p) →
              result
                (GrowattClientSensor.native_value self
                   (final (GrowattClientSensor.async_update self now p)))
              = Ok (default PyNone (d !! attr_name attr)).
Proof.
  intros Hport Haddress Hname Hinfo. eexists. split.
  { by apply (async_setup_platform_runs _ _ port address name c). }
  cbn [added_entities]. intros i attr Hattr. eexists. split.
  { by rewrite list_lookup_fmap, Hattr. }
  split; [done|]. intros p now d.
  unfold GrowattClientSensor.async_update, GrowattClientSensor.native_value.
  intros (c' & ->)%update_client_success. by rewrite get_data_unfold.
Qed.

Lemma async_setup_platform_stops config port address name e c :
  config !! CONF_PORT = Some port →
  config !! CONF_ADDRESS = Some address →
  config !! CONF_NAME = Some name →
  update_hardware_info (GrowattClient port address) = (Raise e, c) →
  async_setup_platform DOMAIN config = Raise e.
Proof.
  intros Hport Haddress Hname Hinfo.
  unfold async_setup_platform, config_getitem.
  rewrite Hport, Haddress, Hname. simpl. by rewrite Hinfo.
Qed.

(** A failure of the client's hardware information is fatal to set-up: the
    error comes out of [async_setup_platform], no sensor is added, and the
    same holds for set-up from a configuration the schema accepts. *)
Theorem setup_fails_on_hardware_info config port address name e c :
  config !! CONF_PORT = Some port →
  config !! CONF_ADDRESS = Some address →
  config !! CONF_NAME = Some name →
  update_hardware_info (GrowattClient port address) = (Raise e, c) →
  async_setup_platform DOMAIN config = Raise e
  ∧ ∀ pf, async_setup_platform DOMAIN config ≠ Ok pf.
Proof.
  intros Hport Haddress Hname Hinfo.
  rewrite (async_setup_platform_stops config port address name e c) by done.
  done.
Qed.

(** Right after set-up nothing has been fetched: the probe holds no data,
    every sensor is unavailable and without value, the sensors are added
    with an update requested first, and the first call of [update], at
    whatever time, calls the client. *)
Theorem fresh_after_setup config pf :
  async_setup_platform DOMAIN config = Ok pf →
  data (probe pf) = EmptyList
  ∧ update_before_add pf = true
  ∧ Forall
      (λ self,
         result (GrowattClientSensor.available self (probe pf)) = Ok false
         ∧ result (GrowattClientSensor.native_value self (probe pf))
           = Ok PyNone)
      (added_entities pf)
  ∧ ∀ now,
      client_updates (trace (GrowattClientDataProbe.update now (probe pf)))
      = 1%nat.
Proof.
  intros Hsetup.
  destruct (async_setup_platform_inv DOMAIN config pf Hsetup)
    as (port & address & name & Hport & Haddress & Hname & Hinfo).
  rewrite (async_setup_platform_runs DOMAIN config port address name _
             Hport Haddress Hname Hinfo) in Hsetup.
  injection Hsetup as <-. cbn [probe added_entities update_before_add].
  split_and!; [done | done | |].
  - by apply Forall_true.
  - intros now. by apply update_due_once.
Qed.

(** All the sensors of a set-up belong to one device: they carry the same
    device information, identified by the domain and the serial number,
    made by Growatt, and none has a template. *)
Theorem sensors_share_device config pf :
  async_setup_platform DOMAIN config = Ok pf →
  ∃ info,
    DeviceInfo.identifiers info
    = [(DOMAIN, get_serial_number (client (probe pf)))]
    ∧ DeviceInfo.manufacturer info = "Growatt"
    ∧ DeviceInfo.entry_type info = SERVICE
    ∧ Forall (λ self, _attr_device_info self = info ∧ template self = PyNone)
        (added_entities pf).
Proof.
  intros Hsetup.
  destruct (async_setup_platform_inv DOMAIN config pf Hsetup)
    as (port & address & name & Hport & Haddress & Hname & Hinfo).
  rewrite (async_setup_platform_runs DOMAIN config port address name _
             Hport Haddress Hname Hinfo) in Hsetup.
  injection Hsetup as <-. simpl. eexists. split_and!; [| | |].
  4: { rewrite Forall_fmap. apply Forall_true. intros attr. simpl.
       split; reflexivity. }
  all: done.
Qed.

(** A configuration that lacks an option makes [async_setup_platform] raise
    a [KeyError] for the first of port, address and name that is missing. *)
Theorem setup_missing_option config :
  (config !! CONF_PORT = None →
   async_setup_platform DOMAIN config = Raise (KeyError CONF_PORT))
  ∧ (is_Some (config !! CONF_PORT) → config !! CONF_ADDRESS = None →
     async_setup_platform DOMAIN config = Raise (KeyError CONF_ADDRESS))
  ∧ (is_Some (config !! CONF_PORT) → is_Some (config !! CONF_ADDRESS) →
     config !! CONF_NAME = None →
     async_setup_platform DOMAIN config = Raise (KeyError CONF_NAME)).
Proof.
  unfold async_setup_platform, config_getitem. split_and!.
  - by intros ->.
  - by intros [port ->] ->.
  - by intros [port ->] [address ->] ->.
Qed.

(** Unique ids tell devices apart: when two serial numbers have no
    underscore, sensors with the same unique id have the same serial number
    and the same key. *)
Theorem unique_id_determines_sensor (name1 name2 : PyValue)
    (serial1 serial2 : string) (description1 description2 :
                                  SensorEntityDescription.t)
    (template1 template2 : PyValue) :
  has_underscore serial1 = false → has_underscore serial2 = false →
  _attr_unique_id
    (GrowattClientSensor.__init__ DOMAIN name1 serial1 description1 template1)
  = _attr_unique_id
      (GrowattClientSensor.__init__ DOMAIN name2 serial2 description2
         template2) →
  serial1 = serial2
  ∧ SensorEntityDescription.key description1
    = SensorEntityDescription.key description2.
Proof.
  intros H1 H2. simpl. rewrite !string_app_assoc.
  by apply app_underscore_inj.
Qed.
End setup_more.


(** ** More on the configuration *)

Section configuration_more.
Context {Client : Type} `{!ClientApi Client}.
Context (DOMAIN : string) (cv_string cv_positive_int : Validator).
Implicit Types (config conf : gmap string PyValue).

(** Set-up on a configuration fails in two ways only: the configuration is
    refused by the schema, or the client's hardware information fails; a
    configuration that passed the schema always has the options set-up
    reads. *)
Theorem setup_failure_modes conf e :
  setup_from_configuration DOMAIN cv_string cv_positive_int conf = Raise e →
  validate (PLATFORM_SCHEMA cv_string cv_positive_int) conf = Raise e
  ∨ ∃ config port address c,
      validate (PLATFORM_SCHEMA cv_string cv_positive_int) conf = Ok config
      ∧ config !! CONF_PORT = Some port
      ∧ config !! CONF_ADDRESS = Some address
      ∧ update_hardware_info (GrowattClient port address) = (Raise e, c).
Proof.
  unfold setup_from_configuration, mbind, PyResult_bind.
  destruct (validate _ conf) as [config|e'] eqn:Hvalid.
  - intros Hsetup. right.
    destruct (validate_PLATFORM_SCHEMA_inv _ _ conf config Hvalid)
      as (given & port & address & name & _ & _ & _ & _ & Hp & Ha & Hn).
    destruct (update_hardware_info (GrowattClient port address))
      as [[[]|e''] c] eqn:Hinfo.
    + by rewrite (async_setup_platform_runs DOMAIN config port address name c)
        in Hsetup.
    + rewrite (async_setup_platform_stops DOMAIN config port address
                 name e'' c) in Hsetup by done.
      injection Hsetup as ->. by exists config, port, address, c.
  - intros [= ->]. by left.
Qed.

(** The options a configuration gives go through their validators, and
    the client is made with the validated port and address. *)
Theorem given_options_are_validated conf pf :
  setup_from_configuration DOMAIN cv_string cv_positive_int conf = Ok pf →
  ∃ port address name,
    update_hardware_info (GrowattClient port address)
    = (Ok (), client (probe pf))
    ∧ (∀ v, conf !! CONF_PORT = Some v → cv_string v = Ok port)
    ∧ (∀ v, conf !! CONF_ADDRESS = Some v → cv_positive_int v = Ok address)
    ∧ (∀ v, conf !! CONF_NAME = Some v → cv_string v = Ok name)
    ∧ Forall
        (λ self,
           DeviceInfo.name (_attr_device_info self)
           = if py_eq_str name "" then
               PyStr (get_serial_number (client (probe pf)))
             else name)
        (added_entities pf).
Proof.
  unfold setup_from_configuration, mbind, PyResult_bind.
  destruct (validate _ conf) as [config|] eqn:Hvalid; [|done].
  intros Hsetup.
  destruct (validate_PLATFORM_SCHEMA_inv _ _ conf config Hvalid)
    as (given & port & address & name
        & Hgiven & Hport & Haddress & Hname & Hp & Ha & Hn).
  destruct (async_setup_platform_inv DOMAIN config pf Hsetup)
    as (port' & address' & name' & Hp' & Ha' & Hn' & Hinfo).
  rewrite Hp in Hp'. rewrite Ha in Ha'. rewrite Hn in Hn'.
  injection Hp' as <-. injection Ha' as <-. injection Hn' as <-.
  exists port, address, name. split_and!; [done | | | |].
  - intros v Hv. rewrite Hgiven in Hv. by injection Hv as <-.
  - intros v Hv. by rewrite Hv in Haddress.
  - intros v Hv. by rewrite Hv in Hname.
  - rewrite (async_setup_platform_runs DOMAIN config port address name _
               Hp Ha Hn Hinfo) in Hsetup.
    injection Hsetup as <-. cbn [probe added_entities client].
    rewrite Forall_fmap. by apply Forall_true.
Qed.

(** An option its validator rejects makes set-up fail: when the port, the
    address or the name, given or defaulted, does not pass its validator,
    no platform comes out of set-up. *)
Theorem rejected_option_fails_setup conf given :
  conf !! CONF_PORT = Some given →
  (∃ e, cv_string given = Raise e)
  ∨ (∃ e, cv_positive_int (default (PyInt 1) (conf !! CONF_ADDRESS))
          = Raise e)
  ∨ (∃ e, cv_string (default (PyStr "") (conf !! CONF_NAME)) = Raise e) →
  ∀ pf,
    setup_from_configuration DOMAIN cv_string cv_positive_int conf ≠ Ok pf.
Proof.
  intros Hgiven Hrejected pf.
  unfold setup_from_configuration, mbind, PyResult_bind.
  destruct (validate _ conf) as [config|] eqn:Hvalid; [|done].
  destruct (validate_PLATFORM_SCHEMA_inv _ _ conf config Hvalid)
    as (given' & port & address & name
        & Hgiven' & Hport & Haddress & Hname & _).
  rewrite Hgiven in Hgiven'. injection Hgiven' as <-.
  destruct Hrejected as [[e He] | [[e He] | [e He]]]; congruence.
Qed.
End configuration_more.


(** ** More on the classification *)

(** A device class stands for one unit: two attributes with the same device
    class have the same unit, and the classes for frequency and temperature
    are never given. *)
Theorem device_class_determines_unit (attr1 attr2 : Attr)
    (class : SensorDeviceClass) :
  sensor_device_class attr1 = Some class →
  sensor_device_class attr2 = Some class →
  attr_unit attr1 = attr_unit attr2
  ∧ class ≠ FREQUENCY ∧ class ≠ TEMPERATURE.
Proof.
  unfold sensor_device_class.
  repeat case_bool_decide; intros [= <-]; repeat case_bool_decide;
    intros [= ]; split_and!; congruence.
Qed.


(** ** More runs on the scripted inverter *)

Section more_runs.
Import GrowattClientDataProbe.

Lemma update_raises_only_client_error_witness :
  let p := __init__ (SN123 [Raise (ClientError "timeout")]) in
  result (update 0 p) = Raise (ClientError "timeout")
  ∧ ClientUpdate (Raise (ClientError "timeout")) ∈ trace (update 0 p).
Proof.
  intros p. split; [reflexivity|].
  by apply (update_raises_only_client_error p 0).
Defined.

Lemma fetch_replaces_reading_witness :
  let p := final (update 0 (__init__ (SN123 [Ok first_reading;
                                             Ok second_reading]))) in
  result (get_data "energy_today" p) = Ok (PyFloat "10.0")
  ∧ ClientUpdate (Ok second_reading) ∈ trace (update 60000000 p)
  ∧ result (get_data "energy_today" (final (update 60000000 p))) = Ok PyNone
  ∧ result (get_data "power_now" (final (update 60000000 p)))
    = Ok (PyFloat "3.0").
Proof.
  intros p.
  assert (ClientUpdate (Ok second_reading) ∈ trace (update 60000000 p))
    as Hfetched by (vm_compute; constructor).
  destruct (fetch_replaces_reading p 60000000 second_reading "energy_today"
              Hfetched) as [_ Henergy].
  destruct (fetch_replaces_reading p 60000000 second_reading "power_now"
              Hfetched) as [_ Hpower].
  split_and!; [reflexivity | exact Hfetched | exact Henergy | exact Hpower].
Defined.

Lemma update_again_after_interval_witness :
  let p := __init__ (SN123 [Ok first_reading; Ok second_reading]) in
  due 0 p
  ∧ SCAN_INTERVAL < 30000001 - 0
  ∧ client_updates (refreshes [0; 30000001] p).2 = 2%nat.
Proof.
  intros p.
  destruct (update_again_after_interval p 0 30000001 I eq_refl) as [_ Htwo].
  split_and!; [exact I | reflexivity | exact Htwo].
Defined.

Lemma one_fetch_per_burst_witness :
  let p := __init__ (SN123 [Ok first_reading; Ok second_reading]) in
  client_updates (refreshes [0; 1; 15000000; 29999999] p).2 = 1%nat
  ∧ data (refreshes [0; 1; 15000000; 29999999] p).1 = Mapping first_reading.
Proof.
  intros p.
  assert (Forall (λ now', now' - 0 < SCAN_INTERVAL) [1; 15000000; 29999999])
    as Hclose by (repeat constructor).
  destruct (one_fetch_per_burst p 0 [1; 15000000; 29999999] I Hclose)
    as [Hstate Hone].
  split; [exact Hone|]. rewrite Hstate. reflexivity.
Defined.

Lemma unavailable_sensor_has_no_value_witness :
  let p := __init__ (SN123 [Ok first_reading]) in
  result (GrowattClientSensor.available power_sensor p) = Ok false
  ∧ result (GrowattClientSensor.native_value power_sensor p) = Ok PyNone.
Proof.
  intros p. split; [reflexivity|].
  by apply (unavailable_sensor_has_no_value power_sensor p).
Defined.


Lemma sensor_reads_its_attribute_witness :
  let config : gmap string PyValue :=
    {[ "port" := PyStr "/dev/ttyUSB0"; "address" := PyInt 1;
       "name" := PyStr "Roof" ]} in
  ∃ pf self,
    async_setup_platform "growatt_solar_modbus" config = Ok pf
    ∧ added_entities pf !! 1%nat = Some self
    ∧ SensorEntityDescription.native_unit_of_measurement
        (entity_description self) = "kWh"
    ∧ result
        (GrowattClientSensor.native_value self
           (final (GrowattClientSensor.async_update self 0 (probe pf))))
      = Ok (PyFloat "10.0").
Proof.
  intros config.
  assert (update_hardware_info (GrowattClient (PyStr "/dev/ttyUSB0") (PyInt 1))
          = (Ok (), SN123 [Ok first_reading])) as Hinfo by reflexivity.
  destruct (sensor_reads_its_attribute "growatt_solar_modbus" config
              (PyStr "/dev/ttyUSB0") (PyInt 1) (PyStr "Roof")
              (SN123 [Ok first_reading]) eq_refl eq_refl eq_refl Hinfo)
    as (pf & Hsetup & Hsensors).
  destruct (Hsensors 1%nat energy_today eq_refl)
    as (self & Hself & Hunit & Hvalue).
  exists pf, self. split_and!; [exact Hsetup | exact Hself | exact Hunit |].
  apply (Hvalue (probe pf) 0 first_reading).
  injection Hsetup as <-. injection Hself as <-.
  vm_compute. constructor.
Defined.

Lemma setup_fails_on_hardware_info_witness :
  let config : gmap string PyValue :=
    {[ "port" := PyStr "/dev/ttyUSB0"; "address" := PyInt 1;
       "name" := PyStr "" ]} in
  @async_setup_platform _ (scripted unplugged) "growatt_solar_modbus" config
  = Raise (ClientError "no answer").
Proof.
  intros config.
  assert (@update_hardware_info _ (scripted unplugged)
            (@GrowattClient _ (scripted unplugged)
               (PyStr "/dev/ttyUSB0") (PyInt 1))
          = (Raise (ClientError "no answer"), unplugged)) as Hinfo
    by reflexivity.
  by destruct (@setup_fails_on_hardware_info _ (scripted unplugged)
                 "growatt_solar_modbus" config (PyStr "/dev/ttyUSB0")
                 (PyInt 1) (PyStr "") (ClientError "no answer") unplugged
                 eq_refl eq_refl eq_refl Hinfo) as [Hraise _].
Defined.

Lemma scenario_setup :
  async_setup_platform "growatt_solar_modbus"
    ({[ "port" := PyStr "/dev/ttyUSB0"; "address" := PyInt 1;
        "name" := PyStr "" ]} : gmap string PyValue)
  = Ok {| probe := __init__ (SN123 [Ok first_reading]);
          added_entities := [power_sensor; energy_sensor];
          update_before_add := true;
          setup_log := [LogDebug "Serial number: %s"] |}.
Proof. reflexivity. Qed.

Lemma fresh_after_setup_witness :
  let p := __init__ (SN123 [Ok first_reading]) in
  result (GrowattClientSensor.available energy_sensor p) = Ok false
  ∧ client_updates (trace (update 1234567 p)) = 1%nat.
Proof.
  intros p.
  destruct (fresh_after_setup "growatt_solar_modbus" _ _ scenario_setup)
    as (_ & _ & Hsensors & Hfirst).
  split; [|exact (Hfirst 1234567)].
  apply Forall_cons in Hsensors as [_ Hsensors].
  apply Forall_cons in Hsensors as [[Hunavailable _] _]. exact Hunavailable.
Defined.

Lemma sensors_share_device_witness :
  _attr_device_info power_sensor = _attr_device_info energy_sensor
  ∧ DeviceInfo.identifiers (_attr_device_info power_sensor)
    = [("growatt_solar_modbus", "SN123")].
Proof.
  destruct (sensors_share_device "growatt_solar_modbus" _ _ scenario_setup)
    as (info & Hids & _ & _ & Hsensors).
  apply Forall_cons in Hsensors as [[Hpower _] Hsensors].
  apply Forall_cons in Hsensors as [[Henergy _] _].
  split.
  - exact (eq_trans Hpower (eq_sym Henergy)).
  - rewrite Hpower. exact Hids.
Defined.

Lemma setup_missing_option_witness :
  async_setup_platform "growatt_solar_modbus" (∅ : gmap string PyValue)
  = Raise (KeyError "port")
  ∧ async_setup_platform "growatt_solar_modbus"
      ({[ "port" := PyStr "/dev/ttyUSB0" ]} : gmap string PyValue)
    = Raise (KeyError "address").
Proof.
  split.
  - destruct (setup_missing_option "growatt_solar_modbus"
                (∅ : gmap string PyValue)) as (Hport & _).
    exact (Hport eq_refl).
  - destruct (setup_missing_option "growatt_solar_modbus"
                ({[ "port" := PyStr "/dev/ttyUSB0" ]} : gmap string PyValue))
      as (_ & Haddress & _).
    apply Haddress; [by eexists | reflexivity].
Defined.

Lemma unique_id_determines_sensor_witness :
  has_underscore "SN123" = false
  ∧ _attr_unique_id energy_sensor = "SN123_energy_today"
  ∧ SensorEntityDescription.key (entity_description energy_sensor)
    = "energy_today".
Proof.
  split_and!; [reflexivity.. |].
  by destruct (unique_id_determines_sensor "growatt_solar_modbus"
                 (PyStr "SN123") (PyStr "Roof") "SN123" "SN123"
                 (create_sensor_entity_description energy_today)
                 (create_sensor_entity_description
                    {| attr_name := "energy_today";
                       attr_description := "Yield"; attr_unit := "Wh" |})
                 PyNone PyNone eq_refl eq_refl eq_refl) as [_ Hkey].
Defined.

Lemma setup_failure_modes_witness :
  setup_from_configuration "growatt_solar_modbus" accept_str
    accept_nonnegative (∅ : gmap string PyValue)
  = Raise (Invalid "port")
  ∧ validate (PLATFORM_SCHEMA accept_str accept_nonnegative)
      (∅ : gmap string PyValue)
    = Raise (Invalid "port").
Proof.
  assert (setup_from_configuration "growatt_solar_modbus" accept_str
            accept_nonnegative (∅ : gmap string PyValue)
          = Raise (Invalid "port")) as Hfails by reflexivity.
  split; [exact Hfails|].
  destruct (setup_failure_modes "growatt_solar_modbus" accept_str
              accept_nonnegative (∅ : gmap string PyValue) (Invalid "port")
              Hfails)
    as [Hschema | (config & port & address & c & Hvalid & _)].
  - exact Hschema.
  - discriminate Hvalid.
Defined.

Lemma given_options_are_validated_witness :
  let conf : gmap string PyValue :=
    {[ "port" := PyStr "/dev/ttyUSB0"; "address" := PyInt 3;
       "name" := PyStr "Roof" ]} in
  ∃ pf port address name,
    setup_from_configuration "growatt_solar_modbus" accept_str
      accept_nonnegative conf = Ok pf
    ∧ update_hardware_info (GrowattClient port address)
      = (Ok (), client (probe pf))
    ∧ address = PyInt 3 ∧ name = PyStr "Roof".
Proof.
  intros conf.
  destruct (setup_from_configuration "growatt_solar_modbus" accept_str
              accept_nonnegative conf) as [pf|e] eqn:Hsetup;
    [|discriminate Hsetup].
  destruct (given_options_are_validated "growatt_solar_modbus" accept_str
              accept_nonnegative conf pf Hsetup)
    as (port & address & name & Hinfo & _ & Haddress & Hname & _).
  exists pf, port, address, name. split_and!; [reflexivity | exact Hinfo | |].
  - specialize (Haddress (PyInt 3) eq_refl). by injection Haddress.
  - specialize (Hname (PyStr "Roof") eq_refl). by injection Hname.
Defined.

Lemma rejected_option_fails_setup_witness :
  let conf : gmap string PyValue :=
    {[ "port" := PyStr "/dev/ttyUSB0"; "address" := PyInt (-1) ]} in
  accept_nonnegative (PyInt (-1)) = Raise (Invalid "positive_int")
  ∧ ∀ pf,
      setup_from_configuration "growatt_solar_modbus" accept_str
        accept_nonnegative conf ≠ Ok pf.
Proof.
  intros conf. split; [reflexivity|].
  apply (rejected_option_fails_setup "growatt_solar_modbus" accept_str
           accept_nonnegative conf (PyStr "/dev/ttyUSB0") eq_refl).
  right; left. by exists (Invalid "positive_int").
Defined.

Lemma device_class_determines_unit_witness :
  sensor_device_class energy_today = Some ENERGY
  ∧ attr_unit energy_today
    = attr_unit {| attr_name := "energy_lifetime";
                   attr_description := "Total energy"; attr_unit := "kWh" |}.
Proof.
  split; [reflexivity|].
  by destruct (device_class_determines_unit energy_today
                 {| attr_name := "energy_lifetime";
                    attr_description := "Total energy"; attr_unit := "kWh" |}
                 ENERGY eq_refl eq_refl) as [Hunit _].
Defined.
End more_runs.
